(** * download_SMAP.py: a shallow embedding of the SMAP download script

    The script builds, for each calendar date of the configured ranges, an
    Earth Engine request ([create_image] and the per-cell [reduceRegion]),
    fetches the result with [getInfo], replaces the sentinel [-9999] by NaN
    and saves one [(N, 1)] array per band with [np.save].

    Model choices:
    - Earth Engine objects are lazy, client-side expression trees; they are
      modelled as the inductive [eexpr], and the remote service is an
      arbitrary function [remote] from the built request to either the list
      of feature property dictionaries or an exception message.
    - Numbers in the JSON response are rationals [Q] (compared numerically,
      as Python's float [==] does); after [np.where] a cell is [VNum q] or
      [VNaN].
    - Python exceptions are [Err msg]; the body of the [try] runs in a small
      state-and-exception monad, so effects done before an exception stay.
    - The filesystem is a function from paths to the saved arrays, and the
      program's observable output is a list of events (remote queries,
      [np.save] calls and printed lines). *)

From Stdlib Require Import ZArith QArith List String Ascii Bool Lia Sorted.
Import ListNotations.

Local Open Scope Z_scope.

(** ** Results and Python exceptions *)

Inductive result (A : Type) : Type :=
| Ok (a : A)
| Err (e : string).
Arguments Ok {A} a.
Arguments Err {A} e.

(** ** Python integer formatting: [str(z)], [f"{z:02d}"], [f"{z:04d}"] *)

Definition digit_char (n : Z) : ascii := ascii_of_nat (48 + Z.to_nat n).

Fixpoint dec_aux (fuel : nat) (n : Z) (acc : string) : string :=
  match fuel with
  | O => acc
  | S f =>
      let acc' := String (digit_char (n mod 10)) acc in
      if n <? 10 then acc' else dec_aux f (n / 10) acc'
  end.

(** decimal digits of a non-negative integer; [log2 n + 1] bits bound the
    number of decimal digits *)
Definition dec_nonneg (n : Z) : string :=
  dec_aux (S (Z.to_nat (Z.log2 n))) n EmptyString.

(** [str(z)] *)
Definition py_str (z : Z) : string :=
  if z <? 0 then String "-" (dec_nonneg (- z)) else dec_nonneg z.

(** [format(z, '0Wd')]: pad with zeros after the sign up to width [w] *)
Fixpoint zeros (k : nat) : string :=
  match k with O => EmptyString | S k' => String "0" (zeros k') end.

Definition fmt0 (w : nat) (z : Z) : string :=
  let ds := dec_nonneg (Z.abs z) in
  let sign := if z <? 0 then "-"%string else EmptyString in
  let width := (String.length sign + String.length ds)%nat in
  (sign ++ zeros (w - width) ++ ds)%string.

(** ** Python's [datetime.date] *)

Record date := mkdate { year : Z; month : Z; day : Z }.

Definition MINYEAR := 1.
Definition MAXYEAR := 9999.

Definition is_leap (y : Z) : bool :=
  (y mod 4 =? 0) && (negb (y mod 100 =? 0) || (y mod 400 =? 0)).

Definition days_in_month (y m : Z) : Z :=
  if m =? 2 then (if is_leap y then 29 else 28)
  else if (m =? 4) || (m =? 6) || (m =? 9) || (m =? 11) then 30
  else 31.

(** [date(year, month, day)]: the field checks of CPython's constructor *)
Definition mk_date (y m d : Z) : result date :=
  if negb ((MINYEAR <=? y) && (y <=? MAXYEAR)) then
    Err ("year " ++ py_str y ++ " is out of range")%string
  else if negb ((1 <=? m) && (m <=? 12)) then
    Err "month must be in 1..12"%string
  else if negb ((1 <=? d) && (d <=? days_in_month y m)) then
    Err "day is out of range for month"%string
  else Ok (mkdate y m d).

(** [start + timedelta(days=1)] *)
Definition add_one_day (x : date) : result date :=
  if day x <? days_in_month (year x) (month x) then
    Ok (mkdate (year x) (month x) (day x + 1))
  else if month x <? 12 then Ok (mkdate (year x) (month x + 1) 1)
  else if year x <? MAXYEAR then Ok (mkdate (year x + 1) 1 1)
  else Err "date value out of range"%string.

(** [date.isoformat()]: ["%04d-%02d-%02d"] *)
Definition isoformat (x : date) : string :=
  (fmt0 4 (year x) ++ "-" ++ fmt0 2 (month x) ++ "-" ++ fmt0 2 (day x))%string.

(** ** Earth Engine request objects *)

Inductive prop : Type :=
| PInt (z : Z)
| PMillis (iso : string).        (* [ee.Date(iso).millis()] *)

Inductive eexpr : Type :=
| ImageCollection (asset : string)
| FilterDate (c : eexpr) (start_date end_date : string)
| First (c : eexpr)
| Reproject (i : eexpr) (crs : string) (scale : Z)
| Select (i : eexpr) (bands : list string)
| Unmask (i : eexpr) (value : Z) (sameFootprint : bool)
| Clip (i : eexpr) (geometry : string)
| SetProps (i : eexpr) (props : list (string * prop)).

Definition smap_asset : string := "NASA/SMAP/SPL4SMGP/008".
Definition final_grid : string := "projects/atkins-droughts/assets/final_grid".
Definition final_shp : string := "projects/atkins-droughts/assets/final_shp".

(** [create_image(year, month, day, selected_bands)] *)
Definition create_image (y m d : Z) (selected_bands : list string)
  : result eexpr :=
  match mk_date y m d with
  | Err e => Err e
  | Ok start =>
      match add_one_day start with
      | Err e => Err e
      | Ok end_ =>
          let start_date := isoformat start in
          let end_date := isoformat end_ in
          let smap := FilterDate (ImageCollection smap_asset) start_date end_date in
          let image := First smap in
          let image := Reproject image "EPSG:4326" 4000 in
          let image := Select image selected_bands in
          let image := Clip (Unmask image (-9999) true) final_shp in
          let image := SetProps image
            [("year", PInt y); ("month", PInt m); ("day", PInt d);
             ("system:time_start", PMillis start_date);
             ("system:time_end", PMillis end_date)]%string in
          Ok image
      end
  end.

(** The request executed by [extracted_data.getInfo()]: [final_grid.map]
    of [cell.set(image.reduceRegion(...))] with these parameters. *)
Record query := mkquery {
  q_grid : string;
  q_image : eexpr;
  q_reducer : string;
  q_scale : Z;
  q_bestEffort : bool;
  q_crs : string;
  q_maxPixels : Z
}.

Definition extract_query (image : eexpr) : query :=
  mkquery final_grid image "toList" 4000 false "EPSG:4326" 1000000000.

(** ** Response data, NumPy arrays and the band dictionary *)

(** a feature's ['properties'] as returned by [getInfo()]: each band name
    maps to the list produced by [ee.Reducer.toList()] *)
Definition feature := list (string * list Q).

(** [dict.get(key)] *)
Fixpoint dict_get {V} (d : list (string * V)) (k : string) : option V :=
  match d with
  | [] => None
  | (k', v) :: d' => if String.eqb k k' then Some v else dict_get d' k
  end.

(** [d[key] = v]: overwrite in place, or append a new key at the end *)
Fixpoint dict_set {V} (d : list (string * V)) (k : string) (v : V)
  : list (string * V) :=
  match d with
  | [] => [(k, v)]
  | (k', v') :: d' =>
      if String.eqb k k' then (k', v) :: d' else (k', v') :: dict_set d' k v
  end.

(** [feature['properties'].get(band, [])] *)
Definition props_get (f : feature) (band : string) : list Q :=
  match dict_get f band with Some l => l | None => [] end.

(** A float cell of a NumPy array after [np.where(..., np.nan, ...)]. *)
Inductive val : Type :=
| VNum (q : Q)
| VNaN.

Definition SENTINEL : Q := -9999.

(** [np.where(data == -9999, np.nan, data)] on [data = np.array(l)] *)
Definition np_where_sentinel (data : list Q) : list val :=
  map (fun x => if Qeq_bool x SENTINEL then VNaN else VNum x) data.

Record ndarray := mkarr { shape : list nat; elems : list val }.

(** [np.array(l)] for a flat list of scalars *)
Definition np_array (l : list val) : ndarray := mkarr [List.length l] l.

Definition size (a : ndarray) : nat := List.length (elems a).

(** [a.reshape(-1, k)] *)
Definition reshape_m1 (a : ndarray) (k : nat) : result ndarray :=
  if Nat.eqb k 0 then Err "cannot reshape array"%string
  else if Nat.eqb (size a mod k) 0 then Ok (mkarr [size a / k; k]%nat (elems a))
  else Err "cannot reshape array"%string.

(** [repr(shape)] of a tuple *)
Fixpoint join_comma (l : list nat) : string :=
  match l with
  | [] => EmptyString
  | [n] => py_str (Z.of_nat n)
  | n :: l' => (py_str (Z.of_nat n) ++ ", " ++ join_comma l')%string
  end.

Definition shape_str (s : list nat) : string :=
  match s with
  | [n] => ("(" ++ py_str (Z.of_nat n) ++ ",)")%string
  | _ => ("(" ++ join_comma s ++ ")")%string
  end.

(** ** Program state and effects *)

Inductive event : Type :=
| EQuery (q : query)                  (* [extracted_data.getInfo()] *)
| ESave (path : string) (a : ndarray) (* [np.save(path, a)] *)
| EPrint (line : string).             (* [print(line)] *)

Record state := mkstate {
  files : string -> option ndarray;
  events : list event
}.

(** The body of the [try] block: state passing with Python exceptions;
    the state reached before an exception is kept. *)
Definition M (A : Type) := state -> state * result A.

Definition ret {A} (a : A) : M A := fun s => (s, Ok a).

Definition bind {A B} (m : M A) (k : A -> M B) : M B :=
  fun s => let '(s', r) := m s in
           match r with Ok a => k a s' | Err e => (s', Err e) end.

Notation "'let*' x := m 'in' k" := (bind m (fun x => k))
  (at level 200, x name, m at level 100, k at level 200).

(** a pure Python computation that may raise *)
Definition lift {A} (r : result A) : M A := fun s => (s, r).

Definition emit (e : event) : M unit :=
  fun s => (mkstate (files s) (events s ++ [e]), Ok tt).

Definition np_save (path : string) (a : ndarray) : M unit :=
  fun s => (mkstate (fun p => if String.eqb p path then Some a else files s p)
                    (events s ++ [ESave path a]), Ok tt).

Definition print (line : string) : M unit := emit (EPrint line).

(** [extracted_data.getInfo()['features']]: the remote service answers the
    query with the features' properties, or raises. *)
Definition get_info (remote : query -> result (list feature)) (q : query)
  : M (list feature) :=
  fun s => (mkstate (files s) (events s ++ [EQuery q]), remote q).

Fixpoint for_ {A} (l : list A) (f : A -> M unit) : M unit :=
  match l with
  | [] => ret tt
  | x :: l' => let* _ := f x in for_ l' f
  end.

Fixpoint fold_res {A B} (f : B -> A -> result B) (l : list A) (acc : B)
  : result B :=
  match l with
  | [] => Ok acc
  | x :: l' => match f acc x with Ok acc' => fold_res f l' acc' | Err e => Err e end
  end.

(** ** The script *)

(** [range(a, b)] *)
Definition range (a b : Z) : list Z :=
  map (fun i => a + Z.of_nat i) (seq 0 (Z.to_nat (b - a))).

Definition years : list Z := range 2016 2017.
Definition months : list Z := range 1 2.
Definition days : list Z := range 1 4.

Definition selected_bands : list string := ["sm_surface"; "sm_rootzone"]%string.
Definition final_bands : list string := ["sm_surface"; "sm_rootzone"]%string.

(** [{band: [] for band in final_bands}] *)
Definition init_concatenated (bands : list string) : list (string * list val) :=
  fold_left (fun d b => dict_set d b []) bands [].

(** [concatenated_data[band].extend(data)] *)
Definition dict_extend (d : list (string * list val)) (band : string)
  (data : list val) : result (list (string * list val)) :=
  match dict_get d band with
  | Some l => Ok (dict_set d band (l ++ data))
  | None => Err ("KeyError: '" ++ band ++ "'")%string
  end.

(** the two nested loops over [features] and [final_bands] *)
Definition process_features (features : list feature)
  : result (list (string * list val)) :=
  fold_res (fun cd feature =>
              fold_res (fun cd band =>
                          let data := np_where_sentinel (props_get feature band) in
                          dict_extend cd band data)
                       final_bands cd)
           features (init_concatenated final_bands).

(** the [filename] f-string *)
Definition out_path (y m d : Z) (band : string) : string :=
  ("/home/olivia/Flash_Droughts_Wildfires/SMAP_GEE/data/processed_"
   ++ py_str y ++ "_" ++ fmt0 2 m ++ "_" ++ fmt0 2 d ++ "_" ++ band
   ++ "_array.npy")%string.

(** [concatenated_data[band]] *)
Definition dict_index (d : list (string * list val)) (band : string)
  : result (list val) :=
  match dict_get d band with
  | Some l => Ok l
  | None => Err ("KeyError: '" ++ band ++ "'")%string
  end.

(** the save loop *)
Definition save_band (y m d : Z) (cd : list (string * list val)) (band : string)
  : M unit :=
  let* vals := lift (dict_index cd band) in
  let* final_band_array := lift (reshape_m1 (np_array vals) 1) in
  let filename := out_path y m d band in
  let* _ := np_save filename final_band_array in
  print ("Saved: " ++ filename ++ " with shape "
         ++ shape_str (shape final_band_array))%string.

(** the body of the [try] block *)
Definition try_body (remote : query -> result (list feature)) (y m d : Z)
  : M unit :=
  let* image := lift (create_image y m d selected_bands) in
  let* features := get_info remote (extract_query image) in
  let* concatenated_data := lift (process_features features) in
  for_ final_bands (save_band y m d concatenated_data).

Definition error_line (y m d : Z) (e : string) : string :=
  ("Error processing " ++ py_str y ++ "-" ++ py_str m ++ "-" ++ py_str d
   ++ ": " ++ e)%string.

(** one iteration of the innermost loop: [try ... except Exception as e] *)
Definition iteration (remote : query -> result (list feature)) (st : state)
  (y m d : Z) : state :=
  let '(st', r) := try_body remote y m d st in
  match r with
  | Ok _ => st'
  | Err e => fst (print (error_line y m d e) st')
  end.

(** the three nested [for] loops *)
Definition date_loops (remote : query -> result (list feature))
  (ys ms ds : list Z) (st : state) : state :=
  fold_left (fun st y =>
    fold_left (fun st m =>
      fold_left (fun st d => iteration remote st y m d) ds st) ms st) ys st.

Definition main (remote : query -> result (list feature)) (st : state) : state :=
  date_loops remote years months days st.

(** ** Auxiliary definitions used in the statements *)

(** all values of one band across the features, in feature order *)
Definition raw_band (features : list feature) (band : string) : list Q :=
  List.concat (map (fun f => props_get f band) features).

(** the query sent for a date whose [create_image] succeeded *)
Definition query_of (y m d : Z) : result query :=
  match create_image y m d selected_bands with
  | Ok image => Ok (extract_query image)
  | Err e => Err e
  end.

Definition empty_state : state := mkstate (fun _ => None) [].

(** ** Core lemmas *)

Definition s_surface : string := "sm_surface".
Definition s_rootzone : string := "sm_rootzone".

Lemma final_bands_eq : final_bands = [s_surface; s_rootzone].
Proof. reflexivity. Qed.

Lemma init_concatenated_final :
  init_concatenated final_bands = [(s_surface, []); (s_rootzone, [])].
Proof. reflexivity. Qed.

Lemma process_one_feature (f : feature) (A B : list val) :
  fold_res (fun cd band =>
              dict_extend cd band (np_where_sentinel (props_get f band)))
           final_bands [(s_surface, A); (s_rootzone, B)]
  = Ok [(s_surface, A ++ np_where_sentinel (props_get f s_surface));
        (s_rootzone, B ++ np_where_sentinel (props_get f s_rootzone))].
Proof. reflexivity. Qed.

Lemma process_features_acc (features : list feature) (A B : list val) :
  fold_res (fun cd feature =>
              fold_res (fun cd band =>
                          dict_extend cd band (np_where_sentinel (props_get feature band)))
                       final_bands cd)
           features [(s_surface, A); (s_rootzone, B)]
  = Ok [(s_surface, A ++ np_where_sentinel (raw_band features s_surface));
        (s_rootzone, B ++ np_where_sentinel (raw_band features s_rootzone))].
Proof.
  revert A B; induction features as [|f fs IH]; intros A B.
  - cbn. rewrite !app_nil_r. reflexivity.
  - cbn [fold_res]. rewrite process_one_feature, IH.
    unfold raw_band, np_where_sentinel. cbn [map List.concat].
    rewrite !map_app, !app_assoc. reflexivity.
Qed.

Lemma process_features_ok (features : list feature) :
  process_features features
  = Ok [(s_surface, np_where_sentinel (raw_band features s_surface));
        (s_rootzone, np_where_sentinel (raw_band features s_rootzone))].
Proof.
  unfold process_features. rewrite init_concatenated_final.
  apply process_features_acc.
Qed.

Lemma reshape_np_array (l : list val) :
  reshape_m1 (np_array l) 1 = Ok (mkarr [List.length l; 1]%nat l).
Proof.
  unfold reshape_m1, size, np_array; cbn [elems].
  rewrite Nat.mod_1_r, Nat.div_1_r. reflexivity.
Qed.

(** the array saved for one band *)
Definition band_array (features : list feature) (band : string) : ndarray :=
  mkarr [List.length (raw_band features band); 1]%nat
        (np_where_sentinel (raw_band features band)).

Definition saved_line (y m d : Z) (features : list feature) (band : string)
  : string :=
  ("Saved: " ++ out_path y m d band ++ " with shape "
   ++ shape_str (shape (band_array features band)))%string.

Lemma np_where_sentinel_length (l : list Q) :
  List.length (np_where_sentinel l) = List.length l.
Proof. apply length_map. Qed.

Lemma save_band_eq (y m d : Z) (features : list feature) (band : string)
  (st : state) :
  dict_get [(s_surface, np_where_sentinel (raw_band features s_surface));
            (s_rootzone, np_where_sentinel (raw_band features s_rootzone))] band
  = Some (np_where_sentinel (raw_band features band)) ->
  save_band y m d
    [(s_surface, np_where_sentinel (raw_band features s_surface));
     (s_rootzone, np_where_sentinel (raw_band features s_rootzone))] band st
  = (mkstate (fun p => if String.eqb p (out_path y m d band)
                       then Some (band_array features band) else files st p)
             (events st ++ [ESave (out_path y m d band) (band_array features band);
                            EPrint (saved_line y m d features band)]), Ok tt).
Proof.
  intros Hget. unfold save_band, dict_index, bind, lift.
  rewrite Hget, reshape_np_array, np_where_sentinel_length.
  unfold print, emit, np_save. cbv beta iota zeta. cbn [files events].
  rewrite <- app_assoc. reflexivity.
Qed.

Lemma for_final_bands (f : string -> M unit) (st : state) :
  for_ final_bands f st
  = let '(st1, r1) := f s_surface st in
    match r1 with
    | Ok _ => let '(st2, r2) := f s_rootzone st1 in
              match r2 with Ok _ => (st2, Ok tt) | Err e => (st2, Err e) end
    | Err e => (st1, Err e)
    end.
Proof.
  unfold for_, final_bands, bind, ret. fold s_surface s_rootzone.
  destruct (f s_surface st) as [st1 [u|e]]; [|reflexivity].
  destruct (f s_rootzone st1) as [st2 [v|e]]; reflexivity.
Qed.

(** the three outcomes of one iteration *)
Lemma iteration_date_error (remote : query -> result (list feature))
  (st : state) (y m d : Z) (e : string) :
  query_of y m d = Err e ->
  iteration remote st y m d
  = mkstate (files st) (events st ++ [EPrint (error_line y m d e)]).
Proof.
  unfold query_of. intros H.
  destruct (create_image y m d selected_bands) as [image|e'] eqn:Hc;
    [discriminate|injection H as <-].
  unfold iteration, try_body, bind, lift. rewrite Hc. reflexivity.
Qed.

Lemma iteration_remote_error (remote : query -> result (list feature))
  (st : state) (y m d : Z) (q : query) (e : string) :
  query_of y m d = Ok q -> remote q = Err e ->
  iteration remote st y m d
  = mkstate (files st) (events st ++ [EQuery q; EPrint (error_line y m d e)]).
Proof.
  unfold query_of. intros H Hr.
  destruct (create_image y m d selected_bands) as [image|e'] eqn:Hc;
    [injection H as <-|discriminate].
  unfold iteration, try_body, bind, lift, get_info. rewrite Hc, Hr.
  cbn. rewrite <- app_assoc. reflexivity.
Qed.

Lemma iteration_ok (remote : query -> result (list feature))
  (st : state) (y m d : Z) (q : query) (features : list feature) :
  query_of y m d = Ok q -> remote q = Ok features ->
  iteration remote st y m d
  = mkstate (fun p => if String.eqb p (out_path y m d s_rootzone)
                      then Some (band_array features s_rootzone)
                      else if String.eqb p (out_path y m d s_surface)
                      then Some (band_array features s_surface)
                      else files st p)
            (events st ++
               [EQuery q;
                ESave (out_path y m d s_surface) (band_array features s_surface);
                EPrint (saved_line y m d features s_surface);
                ESave (out_path y m d s_rootzone) (band_array features s_rootzone);
                EPrint (saved_line y m d features s_rootzone)]).
Proof.
  unfold query_of. intros H Hr.
  destruct (create_image y m d selected_bands) as [image|e'] eqn:Hc;
    [injection H as <-|discriminate].
  unfold iteration, try_body.
  unfold bind at 1, lift at 1. rewrite Hc.
  unfold bind at 1, get_info. rewrite Hr.
  unfold bind at 1, lift. rewrite process_features_ok.
  rewrite for_final_bands.
  rewrite save_band_eq by reflexivity.
  rewrite save_band_eq by reflexivity.
  cbn [files events]. rewrite <- !app_assoc. reflexivity.
Qed.

(** ** Paths *)

Lemma append_cancel_l (p s t : string) :
  (p ++ s)%string = (p ++ t)%string -> s = t.
Proof.
  induction p as [|c p IH]; cbn; [auto|]. intros H. injection H. exact IH.
Qed.

Lemma out_path_bands_differ (y m d : Z) :
  out_path y m d s_surface <> out_path y m d s_rootzone.
Proof.
  unfold out_path. intros H.
  repeat (apply append_cancel_l in H).
  discriminate H.
Qed.

Lemma files_iteration_band (remote : query -> result (list feature))
  (st : state) (y m d : Z) (q : query) (features : list feature) (band : string) :
  query_of y m d = Ok q -> remote q = Ok features -> In band final_bands ->
  files (iteration remote st y m d) (out_path y m d band)
  = Some (band_array features band).
Proof.
  intros Hq Hr Hin. rewrite (iteration_ok remote st y m d q features Hq Hr).
  cbn [files]. rewrite final_bands_eq in Hin.
  destruct Hin as [<-|[<-|[]]].
  - rewrite (proj2 (String.eqb_neq _ _) (out_path_bands_differ y m d)).
    rewrite String.eqb_refl. reflexivity.
  - rewrite String.eqb_refl. reflexivity.
Qed.

(** ** Frame: an iteration's effect does not depend on the prior state *)

Definition overlay (new old : string -> option ndarray) (p : string)
  : option ndarray :=
  match new p with Some a => Some a | None => old p end.

Lemma iteration_frame (remote : query -> result (list feature))
  (st : state) (y m d : Z) :
  (forall p, files (iteration remote st y m d) p
             = overlay (files (iteration remote empty_state y m d)) (files st) p)
  /\ events (iteration remote st y m d)
     = events st ++ events (iteration remote empty_state y m d).
Proof.
  destruct (query_of y m d) as [q|e] eqn:Hq.
  - destruct (remote q) as [features|e] eqn:Hr.
    + rewrite !(iteration_ok remote _ y m d q features Hq Hr).
      cbn [files events]. split; [|reflexivity].
      intros p. unfold overlay.
      destruct (String.eqb p (out_path y m d s_rootzone)); [reflexivity|].
      destruct (String.eqb p (out_path y m d s_surface)); reflexivity.
    + rewrite !(iteration_remote_error remote _ y m d q e Hq Hr).
      split; reflexivity.
  - rewrite !(iteration_date_error remote _ y m d e Hq). split; reflexivity.
Qed.

(** ** Date enumeration *)

Definition dates_of (ys ms ds : list Z) : list (Z * Z * Z) :=
  flat_map (fun y => flat_map (fun m => map (fun d => (y, m, d)) ds) ms) ys.

Definition run_dates (remote : query -> result (list feature))
  (l : list (Z * Z * Z)) (st : state) : state :=
  fold_left (fun st '(y, m, d) => iteration remote st y m d) l st.

Lemma run_dates_app (remote : query -> result (list feature)) l1 l2 st :
  run_dates remote (l1 ++ l2) st = run_dates remote l2 (run_dates remote l1 st).
Proof. unfold run_dates. apply fold_left_app. Qed.

Lemma run_dates_cons (remote : query -> result (list feature)) y m d l st :
  run_dates remote ((y, m, d) :: l) st
  = run_dates remote l (iteration remote st y m d).
Proof. reflexivity. Qed.

Lemma date_loops_run_dates (remote : query -> result (list feature))
  (ys ms ds : list Z) (st : state) :
  date_loops remote ys ms ds st = run_dates remote (dates_of ys ms ds) st.
Proof.
  unfold date_loops, dates_of. revert st.
  induction ys as [|y ys IHy]; intros st; [reflexivity|].
  cbn [fold_left flat_map]. rewrite run_dates_app, <- IHy. f_equal.
  clear IHy. revert st.
  induction ms as [|m ms IHm]; intros st; [reflexivity|].
  cbn [fold_left flat_map]. rewrite run_dates_app, <- IHm. f_equal.
  clear IHm. revert st.
  induction ds as [|d ds IHd]; intros st; [reflexivity|].
  cbn [fold_left map]. apply IHd.
Qed.

Lemma run_dates_frame (remote : query -> result (list feature))
  (l : list (Z * Z * Z)) (st : state) :
  (forall p, files (run_dates remote l st) p
             = overlay (files (run_dates remote l empty_state)) (files st) p)
  /\ events (run_dates remote l st)
     = events st ++ flat_map (fun '(y, m, d) =>
                                events (iteration remote empty_state y m d)) l.
Proof.
  revert st. induction l as [|[[y m] d] l IH]; intros st.
  - cbn. split; [reflexivity|]. rewrite app_nil_r. reflexivity.
  - rewrite !run_dates_cons. cbn [flat_map].
    destruct (iteration_frame remote st y m d) as [Hf He].
    destruct (IH (iteration remote st y m d)) as [IHf IHe].
    destruct (IH (iteration remote empty_state y m d)) as [IHf0 _].
    split.
    + intros p. rewrite IHf. unfold overlay. rewrite IHf0, Hf. unfold overlay.
      destruct (files (run_dates remote l empty_state) p); reflexivity.
    + rewrite IHe, He, app_assoc. reflexivity.
Qed.

(** lexicographic order on [(year, month, day)] *)
Definition lex_lt (a b : Z * Z * Z) : Prop :=
  let '(y, m, d) := a in
  let '(y', m', d') := b in
  y < y' \/ (y = y' /\ (m < m' \/ (m = m' /\ d < d'))).

Lemma in_range (a b z : Z) : In z (range a b) <-> a <= z < b.
Proof.
  unfold range. rewrite in_map_iff. split.
  - intros [i [<- Hi]]. apply in_seq in Hi. lia.
  - intros Hz. exists (Z.to_nat (z - a)). split; [lia|].
    apply in_seq. lia.
Qed.

Lemma range_sorted_aux (a : Z) (s n : nat) :
  StronglySorted Z.lt (map (fun i => a + Z.of_nat i) (seq s n)).
Proof.
  revert s. induction n as [|n IH]; intros s; cbn; constructor; [apply IH|].
  apply Forall_forall. intros x Hx. apply in_map_iff in Hx.
  destruct Hx as [i [<- Hi]]. apply in_seq in Hi. lia.
Qed.

Lemma range_sorted (a b : Z) : StronglySorted Z.lt (range a b).
Proof. apply range_sorted_aux. Qed.

Lemma SS_app {A} (R : A -> A -> Prop) (l1 l2 : list A) :
  StronglySorted R l1 -> StronglySorted R l2 ->
  (forall x y, In x l1 -> In y l2 -> R x y) ->
  StronglySorted R (l1 ++ l2).
Proof.
  induction l1 as [|x l1 IH]; intros H1 H2 H12; [exact H2|].
  apply StronglySorted_inv in H1 as [H1 Hx]. cbn. constructor.
  - apply IH; auto. intros a b Ha Hb. apply H12; [right|]; auto.
  - apply Forall_app. split; [exact Hx|].
    apply Forall_forall. intros b Hb. apply H12; [left|]; auto.
Qed.

Lemma SS_flat_map {A B} (RA : A -> A -> Prop) (RB : B -> B -> Prop)
  (f : A -> list B) (l : list A) :
  StronglySorted RA l ->
  (forall x, In x l -> StronglySorted RB (f x)) ->
  (forall x x' a b, RA x x' -> In a (f x) -> In b (f x') -> RB a b) ->
  StronglySorted RB (flat_map f l).
Proof.
  induction l as [|x l IH]; intros Hl Hf Hcross; cbn; [constructor|].
  apply StronglySorted_inv in Hl as [Hl Hx].
  apply SS_app.
  - apply Hf. left. reflexivity.
  - apply IH; auto. intros z Hz. apply Hf. right. exact Hz.
  - intros a b Ha Hb. apply in_flat_map in Hb as [x' [Hx' Hb]].
    apply (Hcross x x'); auto. rewrite Forall_forall in Hx. auto.
Qed.

Lemma SS_map {A B} (RA : A -> A -> Prop) (RB : B -> B -> Prop)
  (f : A -> B) (l : list A) :
  StronglySorted RA l -> (forall x x', RA x x' -> RB (f x) (f x')) ->
  StronglySorted RB (map f l).
Proof.
  intros Hl Hf. induction Hl as [|x l _ IH Hx]; cbn; constructor; [exact IH|].
  apply Forall_map. eapply Forall_impl; [|exact Hx]. intros a. apply Hf.
Qed.

Lemma dates_of_sorted (y0 y1 m0 m1 d0 d1 : Z) :
  StronglySorted lex_lt (dates_of (range y0 y1) (range m0 m1) (range d0 d1)).
Proof.
  unfold dates_of. apply (SS_flat_map Z.lt); [apply range_sorted| |].
  - intros y _. apply (SS_flat_map Z.lt); [apply range_sorted| |].
    + intros m _. apply (SS_map Z.lt); [apply range_sorted|].
      intros d d' Hd. cbn. lia.
    + intros m m' a b Hm Ha Hb.
      apply in_map_iff in Ha as [d [<- _]]. apply in_map_iff in Hb as [d' [<- _]].
      cbn. lia.
  - intros y y' a b Hy Ha Hb.
    apply in_flat_map in Ha as [m [_ Ha]]. apply in_map_iff in Ha as [d [<- _]].
    apply in_flat_map in Hb as [m' [_ Hb]]. apply in_map_iff in Hb as [d' [<- _]].
    cbn. lia.
Qed.

(** ** Dates accepted by [create_image] *)

Lemma query_of_valid (y m d : Z) (q : query) :
  query_of y m d = Ok q ->
  1 <= y <= 9999 /\ 1 <= m <= 12 /\ 1 <= d <= days_in_month y m.
Proof.
  unfold query_of, create_image, mk_date, MINYEAR, MAXYEAR.
  destruct ((1 <=? y) && (y <=? 9999)) eqn:Hy; [|discriminate].
  destruct ((1 <=? m) && (m <=? 12)) eqn:Hm; [|discriminate].
  destruct ((1 <=? d) && (d <=? days_in_month y m)) eqn:Hd; [|discriminate].
  intros _. apply andb_prop in Hy, Hm, Hd. rewrite !Z.leb_le in Hy, Hm, Hd. lia.
Qed.

Lemma days_in_month_le (y m : Z) : days_in_month y m <= 31.
Proof.
  unfold days_in_month.
  destruct (m =? 2); [destruct (is_leap y); lia|].
  destruct (_ || _); lia.
Qed.

Lemma fmt0_2_length (z : Z) : 1 <= z <= 31 -> String.length (fmt0 2 z) = 2%nat.
Proof.
  intros Hz. assert (Hin : In z (range 1 32)) by (apply in_range; lia).
  assert (Hall : forallb (fun z => Nat.eqb (String.length (fmt0 2 z)) 2)
                         (range 1 32) = true) by reflexivity.
  rewrite forallb_forall in Hall. apply Nat.eqb_eq, Hall, Hin.
Qed.

Lemma nth_error_np_where_sentinel (l : list Q) (i : nat) (x : Q) :
  nth_error l i = Some x ->
  nth_error (np_where_sentinel l) i
  = Some (if Qeq_bool x SENTINEL then VNaN else VNum x).
Proof.
  intros H. unfold np_where_sentinel. rewrite nth_error_map, H. reflexivity.
Qed.

Lemma in_np_where_sentinel (l : list Q) (x : Q) :
  In (VNum x) (np_where_sentinel l) -> In x l /\ ~ (x == SENTINEL)%Q.
Proof.
  unfold np_where_sentinel. intros H. apply in_map_iff in H as [x' [Hx Hin]].
  destruct (Qeq_bool x' SENTINEL) eqn:Hs; [discriminate|].
  injection Hx as <-. split; [exact Hin|]. apply Qeq_bool_neq, Hs.
Qed.

(** a concrete response used by the witnesses: the second feature has no
    ['sm_rootzone'] entry *)
Definition sample_features : list feature :=
  [[("sm_surface", [1 # 2; -9999; 3]%Q); ("sm_rootzone", [-9999; 1 # 4]%Q)];
   [("sm_surface", [-9999]%Q)]]%string.

Definition sample_remote (q : query) : result (list feature) :=
  Ok sample_features.

(** a remote service that fails on every query *)
Definition failing_remote (q : query) : result (list feature) :=
  Err "HttpError 503: service unavailable"%string.

(** ** Claims *)

(** C1: for a successful iteration and every band of [final_bands], the
    saved array has NaN at every position where the raw band list held the
    sentinel [-9999], and contains no number equal to [-9999]. *)
Theorem sentinel_never_saved (remote : query -> result (list feature))
  (st : state) (y m d : Z) (q : query) (features : list feature) (band : string) :
  query_of y m d = Ok q -> remote q = Ok features -> In band final_bands ->
  exists a,
    files (iteration remote st y m d) (out_path y m d band) = Some a /\
    (forall i x, nth_error (raw_band features band) i = Some x ->
                 (x == SENTINEL)%Q -> nth_error (elems a) i = Some VNaN) /\
    (forall x, In (VNum x) (elems a) -> ~ (x == SENTINEL)%Q).
Proof.
  intros Hq Hr Hin. exists (band_array features band).
  split; [exact (files_iteration_band remote st y m d q features band Hq Hr Hin)|].
  split.
  - intros i x Hi Hx. cbn [elems band_array].
    rewrite (nth_error_np_where_sentinel _ _ _ Hi).
    apply Qeq_bool_iff in Hx. rewrite Hx. reflexivity.
  - intros x Hx. apply (in_np_where_sentinel _ _ Hx).
Qed.

Lemma sentinel_never_saved_witness :
  exists a,
    files (iteration sample_remote empty_state 2016 1 1)
          (out_path 2016 1 1 "sm_surface") = Some a /\
    (forall i x, nth_error (raw_band sample_features "sm_surface") i = Some x ->
                 (x == SENTINEL)%Q -> nth_error (elems a) i = Some VNaN) /\
    (forall x, In (VNum x) (elems a) -> ~ (x == SENTINEL)%Q).
Proof.
  eapply sentinel_never_saved; [reflexivity | reflexivity | cbn; auto].
Defined.

(** C3: for a successful iteration and every band, the saved array has
    shape [(N, 1)], N being the number of values collected for that band
    over all features (0 when there are none). *)
Theorem saved_shape_N_1 (remote : query -> result (list feature))
  (st : state) (y m d : Z) (q : query) (features : list feature) (band : string) :
  query_of y m d = Ok q -> remote q = Ok features -> In band final_bands ->
  exists a,
    files (iteration remote st y m d) (out_path y m d band) = Some a /\
    shape a = [List.length (List.concat (map (fun f => props_get f band) features)); 1]%nat.
Proof.
  intros Hq Hr Hin. exists (band_array features band).
  split; [exact (files_iteration_band remote st y m d q features band Hq Hr Hin)|].
  reflexivity.
Qed.

Lemma saved_shape_N_1_witness :
  exists a,
    files (iteration (fun _ => Ok [[]; []]) empty_state 2016 1 2)
          (out_path 2016 1 2 "sm_rootzone") = Some a /\
    shape a = [List.length (List.concat (map (fun f => props_get f "sm_rootzone")
                                            ([[]; []] : list feature))); 1]%nat.
Proof.
  eapply saved_shape_N_1; [reflexivity | reflexivity | cbn; auto].
Defined.

(** C10: for a successful iteration and every band, the saved array is the
    concatenation, in feature order, of the band's value lists with only
    the sentinel values altered: every other value stays at its position. *)
Theorem saved_array_is_concatenation (remote : query -> result (list feature))
  (st : state) (y m d : Z) (q : query) (features : list feature) (band : string) :
  query_of y m d = Ok q -> remote q = Ok features -> In band final_bands ->
  let raw := List.concat (map (fun f => props_get f band) features) in
  exists a,
    files (iteration remote st y m d) (out_path y m d band) = Some a /\
    elems a = np_where_sentinel raw /\
    List.length (elems a) = List.length raw /\
    (forall i x, nth_error raw i = Some x -> ~ (x == SENTINEL)%Q ->
                 nth_error (elems a) i = Some (VNum x)).
Proof.
  intros Hq Hr Hin raw. subst raw. exists (band_array features band).
  split; [exact (files_iteration_band remote st y m d q features band Hq Hr Hin)|].
  split; [reflexivity|]. split; [apply np_where_sentinel_length|].
  intros i x Hi Hx. cbn [elems band_array]. unfold raw_band.
  rewrite (nth_error_np_where_sentinel _ _ _ Hi).
  destruct (Qeq_bool x SENTINEL) eqn:Hs; [|reflexivity].
  apply Qeq_bool_iff in Hs. contradiction.
Qed.

Lemma saved_array_is_concatenation_witness :
  let raw := List.concat (map (fun f => props_get f "sm_surface") sample_features) in
  exists a,
    files (iteration sample_remote empty_state 2016 1 3)
          (out_path 2016 1 3 "sm_surface") = Some a /\
    elems a = np_where_sentinel raw /\
    List.length (elems a) = List.length raw /\
    (forall i x, nth_error raw i = Some x -> ~ (x == SENTINEL)%Q ->
                 nth_error (elems a) i = Some (VNum x)).
Proof.
  eapply saved_array_is_concatenation; [reflexivity | reflexivity | cbn; auto].
Defined.

(** C6: the band dictionary starts each iteration with exactly the keys of
    [final_bands] bound to empty lists; after the feature loop each band
    holds the sentinel-substituted values of this date's response only, and
    the array saved for a band in the iteration (saved during it) is the
    same whatever state earlier dates left behind. *)
Theorem band_data_fresh_per_iteration (remote : query -> result (list feature))
  (st1 st2 : state) (y m d : Z) (q : query) (features : list feature)
  (band : string) :
  query_of y m d = Ok q -> remote q = Ok features -> In band final_bands ->
  init_concatenated final_bands = map (fun b => (b, [])) final_bands /\
  process_features features
    = Ok (map (fun b => (b, np_where_sentinel (raw_band features b))) final_bands) /\
  In (ESave (out_path y m d band) (band_array features band))
     (events (iteration remote empty_state y m d)) /\
  files (iteration remote st1 y m d) (out_path y m d band)
    = files (iteration remote st2 y m d) (out_path y m d band) /\
  files (iteration remote st1 y m d) (out_path y m d band)
    = Some (band_array features band).
Proof.
  intros Hq Hr Hin.
  split; [reflexivity|]. split; [apply process_features_ok|].
  split.
  - rewrite (iteration_ok remote empty_state y m d q features Hq Hr). cbn [events].
    rewrite final_bands_eq in Hin. destruct Hin as [<-|[<-|[]]]; cbn; tauto.
  - rewrite !(files_iteration_band remote _ y m d q features band Hq Hr Hin).
    split; reflexivity.
Qed.

Lemma band_data_fresh_per_iteration_witness :
  let q := extract_query (SetProps (Clip (Unmask (Select (Reproject (First
             (FilterDate (ImageCollection smap_asset) "2016-01-01" "2016-01-02"))
             "EPSG:4326" 4000) selected_bands) (-9999) true) final_shp)
             [("year", PInt 2016); ("month", PInt 1); ("day", PInt 1);
              ("system:time_start", PMillis "2016-01-01");
              ("system:time_end", PMillis "2016-01-02")]%string) in
  init_concatenated final_bands = map (fun b => (b, [])) final_bands /\
  process_features sample_features
    = Ok (map (fun b => (b, np_where_sentinel (raw_band sample_features b))) final_bands) /\
  In (ESave (out_path 2016 1 1 "sm_rootzone") (band_array sample_features "sm_rootzone"))
     (events (iteration sample_remote empty_state 2016 1 1)) /\
  files (iteration sample_remote empty_state 2016 1 1) (out_path 2016 1 1 "sm_rootzone")
    = files (iteration sample_remote (main sample_remote empty_state) 2016 1 1)
            (out_path 2016 1 1 "sm_rootzone") /\
  files (iteration sample_remote empty_state 2016 1 1) (out_path 2016 1 1 "sm_rootzone")
    = Some (band_array sample_features "sm_rootzone").
Proof.
  intros q.
  apply (band_data_fresh_per_iteration sample_remote empty_state
           (main sample_remote empty_state) 2016 1 1 q sample_features "sm_rootzone");
    [reflexivity | reflexivity | cbn; auto].
Defined.

(** C9: a feature whose properties lack a band of [final_bands] does not
    make the iteration fail: it contributes nothing to that band's array,
    every band is still saved with its values from all features, and no
    error line is printed. *)
Theorem missing_band_contributes_nothing (remote : query -> result (list feature))
  (st : state) (y m d : Z) (q : query) (fs1 : list feature) (f : feature)
  (fs2 : list feature) (band : string) :
  query_of y m d = Ok q -> remote q = Ok (fs1 ++ f :: fs2) ->
  dict_get f band = None -> In band final_bands ->
  files (iteration remote st y m d) (out_path y m d band)
    = Some (band_array (fs1 ++ fs2) band) /\
  (forall b, In b final_bands ->
     files (iteration remote st y m d) (out_path y m d b)
     = Some (band_array (fs1 ++ f :: fs2) b)) /\
  (exists evs, events (iteration remote st y m d) = events st ++ evs /\
               forall e, ~ In (EPrint (error_line y m d e)) evs).
Proof.
  intros Hq Hr Hf Hin.
  assert (Hraw : raw_band (fs1 ++ f :: fs2) band = raw_band (fs1 ++ fs2) band).
  { assert (Hnil : props_get f band = []) by (unfold props_get; rewrite Hf; reflexivity).
    unfold raw_band. rewrite !map_app, !concat_app. cbn [map List.concat].
    rewrite Hnil. reflexivity. }
  split; [|split].
  - rewrite (files_iteration_band remote st y m d q _ band Hq Hr Hin).
    unfold band_array. rewrite Hraw. reflexivity.
  - intros b Hb. exact (files_iteration_band remote st y m d q _ b Hq Hr Hb).
  - rewrite (iteration_ok remote st y m d q _ Hq Hr). cbn [events].
    eexists. split; [reflexivity|]. intros e H.
    cbn [In] in H. unfold saved_line, error_line in H.
    repeat (destruct H as [H|H]; [discriminate H|]); exact H.
Qed.

Lemma missing_band_contributes_nothing_witness :
  files (iteration sample_remote empty_state 2016 1 1) (out_path 2016 1 1 "sm_rootzone")
    = Some (band_array ([[("sm_surface", [1 # 2; -9999; 3]%Q); ("sm_rootzone", [-9999; 1 # 4]%Q)]]%string
                        ++ []) "sm_rootzone") /\
  (forall b, In b final_bands ->
     files (iteration sample_remote empty_state 2016 1 1) (out_path 2016 1 1 b)
     = Some (band_array sample_features b)) /\
  (exists evs, events (iteration sample_remote empty_state 2016 1 1) = events empty_state ++ evs /\
               forall e, ~ In (EPrint (error_line 2016 1 1 e)) evs).
Proof.
  eapply (missing_band_contributes_nothing sample_remote empty_state 2016 1 1
           _ [[("sm_surface", [1 # 2; -9999; 3]%Q); ("sm_rootzone", [-9999; 1 # 4]%Q)]]%string
           [("sm_surface", [-9999]%Q)]%string [] "sm_rootzone");
    [reflexivity | reflexivity | reflexivity | cbn; auto].
Defined.

(** C2: when [create_image] raises (an invalid calendar date such as
    February 30 included) or the remote query raises, the iteration leaves
    the files unchanged, prints ["Error processing y-m-d: <message>"] after
    at most one query, and the run goes on with the next date. *)
Theorem failed_date_logged_and_skipped (remote : query -> result (list feature))
  (st : state) (y m d : Z) (rest : list (Z * Z * Z)) (e : string) :
  (query_of y m d = Err e \/ exists q, query_of y m d = Ok q /\ remote q = Err e) ->
  exists pre, (pre = [] \/ exists q, pre = [EQuery q]) /\
    run_dates remote ((y, m, d) :: rest) st
    = run_dates remote rest
        (mkstate (files st) (events st ++ pre ++ [EPrint (error_line y m d e)])).
Proof.
  intros [Hq | [q [Hq Hr]]]; rewrite run_dates_cons.
  - exists []. split; [left; reflexivity|].
    rewrite (iteration_date_error remote st y m d e Hq). reflexivity.
  - exists [EQuery q]. split; [right; exists q; reflexivity|].
    rewrite (iteration_remote_error remote st y m d q e Hq Hr). reflexivity.
Qed.

Lemma failed_date_logged_and_skipped_witness :
  exists pre, (pre = [] \/ exists q, pre = [EQuery q]) /\
    run_dates sample_remote ((2016, 2, 30) :: [(2016, 3, 1)]) empty_state
    = run_dates sample_remote [(2016, 3, 1)]
        (mkstate (files empty_state)
           (events empty_state ++ pre
              ++ [EPrint (error_line 2016 2 30 "day is out of range for month")])).
Proof.
  apply failed_date_logged_and_skipped. left. reflexivity.
Defined.

(** C4: the files a run writes are a function of the remote responses
    only: two runs over the same dates with the same responses leave the
    same content at every path the run writes, whatever was on disk before,
    and running again over the output of a run changes no file. *)
Theorem rerun_overwrites_identically (remote : query -> result (list feature))
  (ys ms ds : list Z) (st : state) (p : string) :
  files (date_loops remote ys ms ds (date_loops remote ys ms ds st)) p
    = files (date_loops remote ys ms ds st) p /\
  (forall st' : state,
     files (date_loops remote ys ms ds empty_state) p <> None ->
     files (date_loops remote ys ms ds st') p = files (date_loops remote ys ms ds st) p).
Proof.
  split; [|intros st' Hw]; rewrite !date_loops_run_dates in *;
    set (l := dates_of ys ms ds) in *.
  - rewrite !(proj1 (run_dates_frame remote l _)). unfold overlay.
    rewrite (proj1 (run_dates_frame remote l st)). unfold overlay.
    destruct (files (run_dates remote l empty_state) p); reflexivity.
  - rewrite !(proj1 (run_dates_frame remote l _)). unfold overlay.
    destruct (files (run_dates remote l empty_state) p); [reflexivity|].
    contradiction.
Qed.

(** C5 fails at the last date Python represents: [date(9999, 12, 31)] is
    valid but adding one day raises [OverflowError]. *)
Lemma create_image_last_date_raises :
  mk_date 9999 12 31 = Ok (mkdate 9999 12 31) /\
  create_image 9999 12 31 selected_bands = Err "date value out of range"%string.
Proof. split; reflexivity. Qed.

(** C5 (amended): for every valid date other than 9999-12-31 and every band
    list, [create_image] returns the request built by: filtering the
    collection to [start, start + 1 day) (the end being the next valid
    calendar date), taking the first image, reprojecting it to EPSG:4326 at
    4000 m, selecting the bands, unmasking with [-9999], clipping to the
    region shapefile, and setting the metadata tags. *)
Theorem create_image_steps (y m d : Z) (bands : list string) (start : date) :
  mk_date y m d = Ok start -> (y, m, d) <> (9999, 12, 31) ->
  exists end_,
    add_one_day start = Ok end_ /\
    mk_date (year end_) (month end_) (day end_) = Ok end_ /\
    create_image y m d bands
    = Ok (SetProps
            (Clip
               (Unmask
                  (Select
                     (Reproject
                        (First (FilterDate (ImageCollection smap_asset)
                                           (isoformat start) (isoformat end_)))
                        "EPSG:4326" 4000)
                     bands)
                  (-9999) true)
               final_shp)
            [("year", PInt y); ("month", PInt m); ("day", PInt d);
             ("system:time_start", PMillis (isoformat start));
             ("system:time_end", PMillis (isoformat end_))]%string).
Proof.
  intros Hmk Hlast. unfold create_image. rewrite Hmk.
  revert Hmk. unfold mk_date, MINYEAR, MAXYEAR.
  destruct ((1 <=? y) && (y <=? 9999)) eqn:Hy; [|discriminate].
  destruct ((1 <=? m) && (m <=? 12)) eqn:Hm; [|discriminate].
  destruct ((1 <=? d) && (d <=? days_in_month y m)) eqn:Hd; [|discriminate].
  intros Hs. injection Hs as <-. cbn [negb].
  apply andb_prop in Hy, Hm, Hd. rewrite !Z.leb_le in Hy, Hm, Hd.
  assert (Hdim : 28 <= days_in_month y m <= 31).
  { unfold days_in_month. destruct (m =? 2); [destruct (is_leap y); lia|].
    destruct (_ || _); lia. }
  unfold add_one_day, MAXYEAR. cbn [year month day].
  destruct (d <? days_in_month y m) eqn:H1.
  - apply Z.ltb_lt in H1. eexists. split; [reflexivity|]. split; [|reflexivity].
    cbn [year month day].
    replace ((1 <=? y) && (y <=? 9999)) with true by (symmetry; apply andb_true_intro; split; apply Z.leb_le; lia).
    replace ((1 <=? m) && (m <=? 12)) with true by (symmetry; apply andb_true_intro; split; apply Z.leb_le; lia).
    replace ((1 <=? d + 1) && (d + 1 <=? days_in_month y m)) with true by (symmetry; apply andb_true_intro; split; apply Z.leb_le; lia).
    reflexivity.
  - destruct (m <? 12) eqn:H2.
    + apply Z.ltb_lt in H2. eexists. split; [reflexivity|]. split; [|reflexivity].
      cbn [year month day].
      assert (Hdim' : 28 <= days_in_month y (m + 1)).
      { unfold days_in_month. destruct (m + 1 =? 2); [destruct (is_leap y); lia|].
        destruct (_ || _); lia. }
      replace ((1 <=? y) && (y <=? 9999)) with true by (symmetry; apply andb_true_intro; split; apply Z.leb_le; lia).
      replace ((1 <=? m + 1) && (m + 1 <=? 12)) with true by (symmetry; apply andb_true_intro; split; apply Z.leb_le; lia).
      replace ((1 <=? 1) && (1 <=? days_in_month y (m + 1))) with true by (symmetry; apply andb_true_intro; split; apply Z.leb_le; lia).
      reflexivity.
    + apply Z.ltb_ge in H1, H2.
      assert (m = 12) by lia. subst m.
      assert (d = 31) by (unfold days_in_month in *; cbn in *; lia). subst d.
      destruct (y <? 9999) eqn:H3.
      * apply Z.ltb_lt in H3. eexists. split; [reflexivity|]. split; [|reflexivity].
        cbn [year month day].
        replace ((1 <=? y + 1) && (y + 1 <=? 9999)) with true by (symmetry; apply andb_true_intro; split; apply Z.leb_le; lia).
        reflexivity.
      * apply Z.ltb_ge in H3. exfalso. apply Hlast. assert (y = 9999) by lia. subst y. reflexivity.
Qed.

Lemma create_image_steps_witness :
  exists end_,
    add_one_day (mkdate 2016 2 29) = Ok end_ /\
    mk_date (year end_) (month end_) (day end_) = Ok end_ /\
    create_image 2016 2 29 selected_bands
    = Ok (SetProps
            (Clip
               (Unmask
                  (Select
                     (Reproject
                        (First (FilterDate (ImageCollection smap_asset)
                                           (isoformat (mkdate 2016 2 29)) (isoformat end_)))
                        "EPSG:4326" 4000)
                     selected_bands)
                  (-9999) true)
               final_shp)
            [("year", PInt 2016); ("month", PInt 2); ("day", PInt 29);
             ("system:time_start", PMillis (isoformat (mkdate 2016 2 29)));
             ("system:time_end", PMillis (isoformat end_))]%string).
Proof.
  apply create_image_steps; [reflexivity | discriminate].
Defined.

(** the [np.save] calls among some events *)
Definition saves (evs : list event) : list (string * ndarray) :=
  flat_map (fun ev => match ev with ESave p a => [(p, a)] | _ => [] end) evs.

(** C7: a successful iteration calls [np.save] exactly once per band of
    [final_bands], at distinct paths built from the filename template, in
    which the month and day take exactly two characters. *)
Theorem one_save_per_band (remote : query -> result (list feature))
  (st : state) (y m d : Z) (q : query) (features : list feature) :
  query_of y m d = Ok q -> remote q = Ok features ->
  exists evs,
    events (iteration remote st y m d) = events st ++ evs /\
    saves evs = map (fun b => (out_path y m d b, band_array features b)) final_bands /\
    NoDup (map (out_path y m d) final_bands) /\
    (forall b, out_path y m d b
       = ("/home/olivia/Flash_Droughts_Wildfires/SMAP_GEE/data/processed_"
          ++ py_str y ++ "_" ++ fmt0 2 m ++ "_" ++ fmt0 2 d ++ "_" ++ b
          ++ "_array.npy")%string) /\
    String.length (fmt0 2 m) = 2%nat /\ String.length (fmt0 2 d) = 2%nat.
Proof.
  intros Hq Hr.
  destruct (query_of_valid y m d q Hq) as (_ & Hm & Hd).
  pose proof (days_in_month_le y m).
  rewrite (iteration_ok remote st y m d q features Hq Hr). cbn [events].
  eexists. split; [reflexivity|]. split; [reflexivity|]. split; [|split; [reflexivity|]].
  - rewrite final_bands_eq. cbn [map]. constructor.
    + intros [Heq|[]]. apply (out_path_bands_differ y m d). symmetry. exact Heq.
    + constructor; [intros []|constructor].
  - split; apply fmt0_2_length; lia.
Qed.

Lemma one_save_per_band_witness :
  exists evs,
    events (iteration sample_remote empty_state 2016 1 1) = events empty_state ++ evs /\
    saves evs = map (fun b => (out_path 2016 1 1 b, band_array sample_features b)) final_bands /\
    NoDup (map (out_path 2016 1 1) final_bands) /\
    (forall b, out_path 2016 1 1 b
       = ("/home/olivia/Flash_Droughts_Wildfires/SMAP_GEE/data/processed_"
          ++ py_str 2016 ++ "_" ++ fmt0 2 1 ++ "_" ++ fmt0 2 1 ++ "_" ++ b
          ++ "_array.npy")%string) /\
    String.length (fmt0 2 1) = 2%nat /\ String.length (fmt0 2 1) = 2%nat.
Proof.
  eapply one_save_per_band; reflexivity.
Defined.

(** C8: the nested loops enumerate the dates in lexicographic
    (year, month, day) order, and the run's events are the blocks of the
    successive dates one after the other: every event of a date, its saves
    included, comes before every event of a later date. *)
Theorem dates_processed_in_order (remote : query -> result (list feature))
  (st : state) (y0 y1 m0 m1 d0 d1 : Z) :
  let dates := dates_of (range y0 y1) (range m0 m1) (range d0 d1) in
  StronglySorted lex_lt dates /\
  date_loops remote (range y0 y1) (range m0 m1) (range d0 d1) st
    = run_dates remote dates st /\
  events (date_loops remote (range y0 y1) (range m0 m1) (range d0 d1) st)
    = events st ++ flat_map (fun '(y, m, d) =>
                               events (iteration remote empty_state y m d)) dates.
Proof.
  intros dates. split; [apply dates_of_sorted|]. split; [apply date_loops_run_dates|].
  rewrite date_loops_run_dates. apply run_dates_frame.
Qed.

(** ** Further properties of the script *)

(** *** Decimal formatting *)

(** the integer denoted by a string of decimal digits, read left to right *)
Definition digit_value (c : ascii) : Z := Z.of_nat (nat_of_ascii c) - 48.

Fixpoint dval (s : string) (acc : Z) : Z :=
  match s with
  | EmptyString => acc
  | String c s' => dval s' (acc * 10 + digit_value c)
  end.

Definition is_digit (c : ascii) : bool :=
  (48 <=? nat_of_ascii c)%nat && (nat_of_ascii c <=? 57)%nat.

Fixpoint all_digits (s : string) : bool :=
  match s with
  | EmptyString => true
  | String c s' => is_digit c && all_digits s'
  end.

Lemma str_app_assoc (s t u : string) :
  ((s ++ t) ++ u)%string = (s ++ (t ++ u))%string.
Proof. induction s as [|c s IH]; cbn; [reflexivity|]. rewrite IH. reflexivity. Qed.

Lemma str_app_nil_r (s : string) : (s ++ "")%string = s.
Proof. induction s as [|c s IH]; cbn; [reflexivity|]. rewrite IH. reflexivity. Qed.

Lemma str_length_app (s t : string) :
  String.length (s ++ t) = (String.length s + String.length t)%nat.
Proof. induction s as [|c s IH]; cbn; [reflexivity|]. rewrite IH. reflexivity. Qed.

Lemma dval_app (s t : string) (a : Z) : dval (s ++ t) a = dval t (dval s a).
Proof. revert a. induction s as [|c s IH]; intros a; cbn; [reflexivity|]. apply IH. Qed.

Lemma all_digits_app (s t : string) :
  all_digits (s ++ t) = all_digits s && all_digits t.
Proof.
  induction s as [|c s IH]; cbn; [reflexivity|]. rewrite IH. apply andb_assoc.
Qed.

Lemma digit_char_value (k : Z) : 0 <= k < 10 -> digit_value (digit_char k) = k.
Proof.
  intros Hk. unfold digit_value, digit_char.
  rewrite nat_ascii_embedding by lia. lia.
Qed.

Lemma digit_char_is_digit (k : Z) : 0 <= k < 10 -> is_digit (digit_char k) = true.
Proof.
  intros Hk. unfold is_digit, digit_char.
  rewrite nat_ascii_embedding by lia.
  apply andb_true_intro. split; apply Nat.leb_le; lia.
Qed.

Lemma dec_aux_app (f : nat) (n : Z) (acc : string) :
  dec_aux f n acc = (dec_aux f n "" ++ acc)%string.
Proof.
  revert n acc. induction f as [|f IH]; intros n acc; cbn [dec_aux]; [reflexivity|].
  destruct (n <? 10); [reflexivity|].
  rewrite IH, (IH _ (String _ "")), str_app_assoc. reflexivity.
Qed.

Lemma dec_aux_value (f : nat) (n : Z) :
  0 <= n < 10 ^ Z.of_nat f -> dval (dec_aux f n "") 0 = n.
Proof.
  revert n. induction f as [|f IH]; intros n Hn.
  - cbn in Hn. cbn. lia.
  - cbn [dec_aux]. pose proof (Z.mod_pos_bound n 10 ltac:(lia)) as Hm.
    destruct (n <? 10) eqn:Hlt.
    + apply Z.ltb_lt in Hlt. cbn [dval].
      rewrite digit_char_value by lia. rewrite Z.mod_small by lia. lia.
    + apply Z.ltb_ge in Hlt. rewrite dec_aux_app, dval_app, IH.
      * cbn [dval]. rewrite digit_char_value by lia.
        pose proof (Z.div_mod n 10 ltac:(lia)). lia.
      * rewrite Nat2Z.inj_succ, Z.pow_succ_r in Hn by lia.
        split; [apply Z.div_pos; lia|]. apply Z.div_lt_upper_bound; lia.
Qed.

Lemma dec_aux_digits (f : nat) (n : Z) :
  0 <= n -> all_digits (dec_aux f n "") = true.
Proof.
  revert n. induction f as [|f IH]; intros n Hn; cbn [dec_aux]; [reflexivity|].
  pose proof (Z.mod_pos_bound n 10 ltac:(lia)).
  destruct (n <? 10).
  - cbn [all_digits]. rewrite digit_char_is_digit by lia. reflexivity.
  - rewrite dec_aux_app, all_digits_app, IH by (apply Z.div_pos; lia).
    cbn [all_digits]. rewrite digit_char_is_digit by lia. reflexivity.
Qed.

Lemma dec_nonneg_fuel (n : Z) :
  0 <= n -> n < 10 ^ Z.of_nat (S (Z.to_nat (Z.log2 n))).
Proof.
  intros Hn. rewrite Nat2Z.inj_succ, Z2Nat.id by apply Z.log2_nonneg.
  apply Z.lt_le_trans with (2 ^ Z.succ (Z.log2 n)).
  - destruct (Z.eq_dec n 0) as [->|Hne]; [cbn; lia|].
    apply Z.log2_spec. lia.
  - apply Z.pow_le_mono_l. split; [lia|]. lia.
Qed.

Lemma dec_nonneg_value (n : Z) : 0 <= n -> dval (dec_nonneg n) 0 = n.
Proof.
  intros Hn. unfold dec_nonneg. apply dec_aux_value.
  split; [exact Hn|]. apply dec_nonneg_fuel, Hn.
Qed.

Lemma py_str_nonneg (z : Z) : 0 <= z -> py_str z = dec_nonneg z.
Proof.
  intros Hz. unfold py_str. destruct (z <? 0) eqn:H; [apply Z.ltb_lt in H; lia|].
  reflexivity.
Qed.

Lemma py_str_digits (z : Z) : 0 <= z -> all_digits (py_str z) = true.
Proof.
  intros Hz. rewrite py_str_nonneg by exact Hz. apply dec_aux_digits, Hz.
Qed.

(** a digit string followed by ['_'] is found back from the concatenation *)
Lemma split_underscore (s s' r r' : string) :
  all_digits s = true -> all_digits s' = true ->
  (s ++ String "_" r)%string = (s' ++ String "_" r')%string ->
  s = s' /\ r = r'.
Proof.
  revert s'. induction s as [|c s IH]; intros s' Hs Hs' H; destruct s' as [|c' s'].
  - cbn in H. injection H as <-. split; reflexivity.
  - cbn in H. injection H as Hc _. subst c'. discriminate Hs'.
  - cbn in H. injection H as Hc _. subst c. discriminate Hs.
  - cbn in H. injection H as <- H. cbn in Hs, Hs'.
    apply andb_prop in Hs as [_ Hs]. apply andb_prop in Hs' as [_ Hs'].
    destruct (IH s' Hs Hs' H) as [-> ->]. split; reflexivity.
Qed.

Lemma append_cancel_r (s s' t : string) :
  (s ++ t)%string = (s' ++ t)%string -> s = s'.
Proof.
  revert s'. induction s as [|c s IH]; intros s' H; destruct s' as [|c' s'].
  - reflexivity.
  - exfalso. apply (f_equal String.length) in H. cbn in H.
    rewrite str_length_app in H. lia.
  - exfalso. apply (f_equal String.length) in H. cbn in H.
    rewrite str_length_app in H. lia.
  - cbn in H. injection H as <- H. rewrite (IH s' H). reflexivity.
Qed.

Lemma fmt0_2_small :
  forallb (fun z => all_digits (fmt0 2 z)) (range 1 32) = true /\
  forallb (fun z => forallb (fun z' => implb (String.eqb (fmt0 2 z) (fmt0 2 z'))
                                               (z =? z'))
                            (range 1 32)) (range 1 32) = true.
Proof. split; vm_compute; reflexivity. Qed.

Lemma fmt0_2_digits (z : Z) : 1 <= z <= 31 -> all_digits (fmt0 2 z) = true.
Proof.
  intros Hz. pose proof (proj1 fmt0_2_small) as H. rewrite forallb_forall in H.
  apply H, in_range. lia.
Qed.

Lemma fmt0_2_inj (z z' : Z) :
  1 <= z <= 31 -> 1 <= z' <= 31 -> fmt0 2 z = fmt0 2 z' -> z = z'.
Proof.
  intros Hz Hz' Heq. pose proof (proj2 fmt0_2_small) as H.
  rewrite forallb_forall in H. specialize (H z ltac:(apply in_range; lia)).
  rewrite forallb_forall in H. specialize (H z' ltac:(apply in_range; lia)).
  rewrite Heq, String.eqb_refl in H. cbn in H. apply Z.eqb_eq, H.
Qed.

Lemma py_str_inj (n n' : Z) :
  0 <= n -> 0 <= n' -> py_str n = py_str n' -> n = n'.
Proof.
  intros Hn Hn' H. rewrite !py_str_nonneg in H by assumption.
  rewrite <- (dec_nonneg_value n Hn), <- (dec_nonneg_value n' Hn'), H.
  reflexivity.
Qed.

(** X: [str(n)] for a non-negative integer reads back as [n], so distinct
    non-negative integers print differently. *)
Theorem py_str_roundtrip (n n' : Z) :
  0 <= n -> 0 <= n' ->
  dval (py_str n) 0 = n /\ (py_str n = py_str n' -> n = n').
Proof.
  intros Hn Hn'. split; [|apply py_str_inj; assumption].
  rewrite py_str_nonneg by exact Hn. apply dec_nonneg_value, Hn.
Qed.

Lemma py_str_roundtrip_witness :
  (0 <= 2016 /\ 0 <= 2017) /\
  (dval (py_str 2016) 0 = 2016 /\ (py_str 2016 = py_str 2017 -> 2016 = 2017)).
Proof.
  split; [lia|]. apply py_str_roundtrip; lia.
Defined.

Lemma out_path_inj (y m d y' m' d' : Z) (b b' : string) :
  0 <= y -> 1 <= m <= 31 -> 1 <= d <= 31 ->
  0 <= y' -> 1 <= m' <= 31 -> 1 <= d' <= 31 ->
  out_path y m d b = out_path y' m' d' b' ->
  y = y' /\ m = m' /\ d = d' /\ b = b'.
Proof.
  intros Hy Hm Hd Hy' Hm' Hd' H. unfold out_path in H.
  apply append_cancel_l in H. cbn [String.append] in H.
  apply split_underscore in H as [Hy1 H];
    [|apply py_str_digits; lia|apply py_str_digits; lia].
  apply split_underscore in H as [Hm1 H];
    [|apply fmt0_2_digits; lia|apply fmt0_2_digits; lia].
  apply split_underscore in H as [Hd1 H];
    [|apply fmt0_2_digits; lia|apply fmt0_2_digits; lia].
  apply append_cancel_r in H.
  repeat split; [| |apply fmt0_2_inj; assumption|exact H].
  - apply py_str_inj; assumption.
  - apply fmt0_2_inj; assumption.
Qed.

(** X: the output filename template is one-to-one: two saves for dates with
    non-negative year, month in 1..31 and day in 1..31 go to the same path
    only for the same date and band. *)
Theorem out_path_injective (y m d y' m' d' : Z) (b b' : string) :
  0 <= y -> 1 <= m <= 31 -> 1 <= d <= 31 ->
  0 <= y' -> 1 <= m' <= 31 -> 1 <= d' <= 31 ->
  out_path y m d b = out_path y' m' d' b' ->
  y = y' /\ m = m' /\ d = d' /\ b = b'.
Proof. apply out_path_inj. Qed.

Lemma out_path_injective_witness :
  (0 <= 2016 /\ 1 <= 1 <= 31 /\ 1 <= 2 <= 31 /\ 0 <= 2016 /\ 1 <= 1 <= 31 /\ 1 <= 3 <= 31) /\
  (out_path 2016 1 2 "sm_surface" = out_path 2016 1 3 "sm_surface" ->
   2016 = 2016 /\ 1 = 1 /\ 2 = 3 /\ "sm_surface"%string = "sm_surface"%string).
Proof.
  split; [lia|]. apply out_path_injective; lia.
Defined.

(** *** Files written by a whole run *)




Lemma run_dates_empty_none (remote : query -> result (list feature))
  (l : list (Z * Z * Z)) (p : string) :
  (forall y m d, In (y, m, d) l -> files (iteration remote empty_state y m d) p = None) ->
  files (run_dates remote l empty_state) p = None.
Proof.
  induction l as [|[[y m] d] l IH]; intros H; [reflexivity|].
  rewrite run_dates_cons, (proj1 (run_dates_frame remote l _)). unfold overlay.
  rewrite IH by (intros y' m' d' Hin; apply H; right; exact Hin).
  apply H. left. reflexivity.
Qed.



(** *** The band dictionary and [reshape] *)

Lemma dict_get_set_same {V} (d : list (string * V)) (k : string) (v : V) :
  dict_get (dict_set d k v) k = Some v.
Proof.
  induction d as [|[k0 v0] d IH]; cbn.
  - rewrite String.eqb_refl. reflexivity.
  - destruct (String.eqb_spec k k0) as [->|Hne]; cbn.
    + rewrite String.eqb_refl. reflexivity.
    + rewrite (proj2 (String.eqb_neq k k0) Hne). exact IH.
Qed.

Lemma dict_get_set_other {V} (d : list (string * V)) (k k' : string) (v : V) :
  k' <> k -> dict_get (dict_set d k v) k' = dict_get d k'.
Proof.
  intros Hne. induction d as [|[k0 v0] d IH]; cbn.
  - rewrite (proj2 (String.eqb_neq k' k) Hne). reflexivity.
  - destruct (String.eqb_spec k k0) as [->|Hne0]; cbn.
    + rewrite (proj2 (String.eqb_neq k' k0) Hne). reflexivity.
    + destruct (String.eqb k' k0); [reflexivity|]. exact IH.
Qed.

(** X: after [d[k] = v] the key [k] maps to [v] and every other key keeps
    its value. *)
Theorem dict_get_set {V} (d : list (string * V)) (k k' : string) (v : V) :
  dict_get (dict_set d k v) k = Some v /\
  (k' <> k -> dict_get (dict_set d k v) k' = dict_get d k').
Proof.
  split; [apply dict_get_set_same|apply dict_get_set_other].
Qed.


Lemma init_concatenated_get (bands : list string) (d : list (string * list val))
  (b : string) :
  dict_get (fold_left (fun d b => dict_set d b []) bands d) b
  = if existsb (String.eqb b) bands then Some [] else dict_get d b.
Proof.
  revert d. induction bands as [|b0 bands IH]; intros d; [reflexivity|].
  cbn [fold_left existsb]. rewrite IH.
  destruct (String.eqb_spec b b0) as [->|Hne].
  - cbn [orb].
    destruct (existsb _ bands); [reflexivity|]. apply dict_get_set_same.
  - cbn [orb].
    destruct (existsb _ bands); [reflexivity|]. apply dict_get_set_other, Hne.
Qed.

(** X: [{band: [] for band in bands}] maps exactly the listed bands to an
    empty list (repeated names included) and has no other key. *)
Theorem init_concatenated_keys (bands : list string) (b : string) :
  dict_get (init_concatenated bands) b = (if existsb (String.eqb b) bands then Some [] else None)
  /\ (dict_get (init_concatenated bands) b = Some [] <-> In b bands).
Proof.
  unfold init_concatenated. rewrite init_concatenated_get. cbn [dict_get].
  split; [reflexivity|].
  destruct (existsb (String.eqb b) bands) eqn:He; split; intros H.
  - apply existsb_exists in He as [x [Hx Heq]]. apply String.eqb_eq in Heq. subst. exact Hx.
  - reflexivity.
  - discriminate.
  - exfalso. assert (existsb (String.eqb b) bands = true) as Ht
      by (apply existsb_exists; exists b; split; [exact H|apply String.eqb_refl]).
    congruence.
Qed.


(** *** What a whole run sends, saves and prints *)

(** the queries sent, and the lines printed, among some events *)
Definition queries (evs : list event) : list query :=
  flat_map (fun ev => match ev with EQuery q => [q] | _ => [] end) evs.

Definition prints (evs : list event) : list string :=
  flat_map (fun ev => match ev with EPrint s => [s] | _ => [] end) evs.

Lemma iteration_saves (remote : query -> result (list feature)) (y m d : Z) :
  saves (events (iteration remote empty_state y m d))
  = match query_of y m d with
    | Ok q => match remote q with
              | Ok features =>
                  map (fun b => (out_path y m d b, band_array features b)) final_bands
              | Err _ => []
              end
    | Err _ => []
    end.
Proof.
  destruct (query_of y m d) as [q|e] eqn:Hq.
  - destruct (remote q) as [features|e] eqn:Hr.
    + rewrite (iteration_ok remote _ y m d q features Hq Hr). reflexivity.
    + rewrite (iteration_remote_error remote _ y m d q e Hq Hr). reflexivity.
  - rewrite (iteration_date_error remote _ y m d e Hq). reflexivity.
Qed.

Lemma iteration_queries (remote : query -> result (list feature)) (y m d : Z) :
  queries (events (iteration remote empty_state y m d))
  = match query_of y m d with Ok q => [q] | Err _ => [] end.
Proof.
  destruct (query_of y m d) as [q|e] eqn:Hq.
  - destruct (remote q) as [features|e] eqn:Hr.
    + rewrite (iteration_ok remote _ y m d q features Hq Hr). reflexivity.
    + rewrite (iteration_remote_error remote _ y m d q e Hq Hr). reflexivity.
  - rewrite (iteration_date_error remote _ y m d e Hq). reflexivity.
Qed.

(** X: the [np.save] calls of a run are, date after date, one per band of
    [final_bands] (surface, then root zone) for each date whose request
    could be built and whose query returned; dates that failed save
    nothing. *)
Theorem run_saves (remote : query -> result (list feature))
  (l : list (Z * Z * Z)) (st : state) :
  saves (events (run_dates remote l st))
  = saves (events st) ++
    flat_map (fun '(y, m, d) =>
                match query_of y m d with
                | Ok q => match remote q with
                          | Ok features =>
                              map (fun b => (out_path y m d b, band_array features b))
                                  final_bands
                          | Err _ => []
                          end
                | Err _ => []
                end) l.
Proof.
  rewrite (proj2 (run_dates_frame remote l st)). unfold saves at 1.
  rewrite flat_map_app. f_equal.
  induction l as [|[[y m] d] l IH]; [reflexivity|].
  cbn [flat_map]. rewrite flat_map_app, IH. f_equal. apply iteration_saves.
Qed.

(** X: a run sends exactly one query for each date whose request could be
    built, in date order, and none for the other dates: a failed date is
    never retried. *)
Theorem run_queries (remote : query -> result (list feature))
  (l : list (Z * Z * Z)) (st : state) :
  queries (events (run_dates remote l st))
  = queries (events st) ++
    flat_map (fun '(y, m, d) =>
                match query_of y m d with Ok q => [q] | Err _ => [] end) l.
Proof.
  rewrite (proj2 (run_dates_frame remote l st)). unfold queries at 1.
  rewrite flat_map_app. f_equal.
  induction l as [|[[y m] d] l IH]; [reflexivity|].
  cbn [flat_map]. rewrite flat_map_app, IH. f_equal. apply iteration_queries.
Qed.

(** X: when the remote service raises on every query, a run writes no
    file, leaves the filesystem as it was, and prints exactly one line per
    date, the error line of that date. *)
Theorem run_with_failing_service (remote : query -> result (list feature))
  (l : list (Z * Z * Z)) (st : state) :
  (forall q, exists e, remote q = Err e) ->
  (forall p, files (run_dates remote l st) p = files st p) /\
  exists evs,
    events (run_dates remote l st) = events st ++ evs /\
    saves evs = [] /\
    List.length (prints evs) = List.length l /\
    (forall y m d, In (y, m, d) l -> exists e, In (error_line y m d e) (prints evs)).
Proof.
  intros Hfail.
  assert (Hit : forall y m d,
             (forall p, files (iteration remote empty_state y m d) p = None) /\
             saves (events (iteration remote empty_state y m d)) = [] /\
             exists e, prints (events (iteration remote empty_state y m d))
                       = [error_line y m d e]).
  { intros y m d. destruct (query_of y m d) as [q|e] eqn:Hq.
    - destruct (Hfail q) as [e Hr].
      rewrite (iteration_remote_error remote _ y m d q e Hq Hr).
      split; [reflexivity|]. split; [reflexivity|]. exists e. reflexivity.
    - rewrite (iteration_date_error remote _ y m d e Hq).
      split; [reflexivity|]. split; [reflexivity|]. exists e. reflexivity. }
  destruct (run_dates_frame remote l st) as [Hf He].
  split.
  - intros p. rewrite Hf. unfold overlay.
    rewrite run_dates_empty_none; [reflexivity|].
    intros y m d _. apply (proj1 (Hit y m d)).
  - eexists. split; [exact He|].
    clear Hf He. induction l as [|[[y m] d] l IH]; [split; [reflexivity|]; split; [reflexivity|]; intros ? ? ? []|].
    destruct (Hit y m d) as (_ & Hs & e & Hp).
    destruct IH as (IHs & IHl & IHin).
    cbn [flat_map]. unfold saves, prints in *. rewrite !flat_map_app.
    split; [|split].
    + rewrite Hs, IHs. reflexivity.
    + rewrite length_app, Hp, IHl. reflexivity.
    + intros y' m' d' [Heq|Hin].
      * injection Heq as <- <- <-. exists e. rewrite Hp. apply in_or_app. left. left. reflexivity.
      * destruct (IHin y' m' d' Hin) as [e' He']. exists e'. apply in_or_app. right. exact He'.
Qed.

Lemma run_with_failing_service_witness :
  (forall q, exists e, failing_remote q = Err e) /\
  ((forall p, files (run_dates failing_remote (dates_of years months days) empty_state) p
              = files empty_state p) /\
   exists evs,
     events (run_dates failing_remote (dates_of years months days) empty_state)
       = events empty_state ++ evs /\
     saves evs = [] /\
     List.length (prints evs) = List.length (dates_of years months days) /\
     (forall y m d, In (y, m, d) (dates_of years months days) ->
        exists e, In (error_line y m d e) (prints evs))).
Proof.
  assert (H : forall q, exists e, failing_remote q = Err e) by (intros q; eexists; reflexivity).
  split; [exact H|]. apply run_with_failing_service, H.
Defined.

(** *** Dates accepted by [date(...)] and [create_image] *)

Lemma mk_date_ok (y m d : Z) (r : date) :
  mk_date y m d = Ok r ->
  r = mkdate y m d /\ 1 <= y <= 9999 /\ 1 <= m <= 12 /\ 1 <= d <= days_in_month y m.
Proof.
  unfold mk_date, MINYEAR, MAXYEAR.
  destruct ((1 <=? y) && (y <=? 9999)) eqn:Hy; [|discriminate].
  destruct ((1 <=? m) && (m <=? 12)) eqn:Hm; [|discriminate].
  destruct ((1 <=? d) && (d <=? days_in_month y m)) eqn:Hd; [|discriminate].
  intros H. injection H as <-.
  apply andb_prop in Hy, Hm, Hd. rewrite !Z.leb_le in Hy, Hm, Hd. tauto.
Qed.

Lemma mk_date_intro (y m d : Z) :
  1 <= y <= 9999 -> 1 <= m <= 12 -> 1 <= d <= days_in_month y m ->
  mk_date y m d = Ok (mkdate y m d).
Proof.
  intros Hy Hm Hd. unfold mk_date, MINYEAR, MAXYEAR.
  replace ((1 <=? y) && (y <=? 9999)) with true
    by (symmetry; apply andb_true_intro; split; apply Z.leb_le; lia).
  replace ((1 <=? m) && (m <=? 12)) with true
    by (symmetry; apply andb_true_intro; split; apply Z.leb_le; lia).
  replace ((1 <=? d) && (d <=? days_in_month y m)) with true
    by (symmetry; apply andb_true_intro; split; apply Z.leb_le; lia).
  reflexivity.
Qed.

Lemma days_in_month_ge (y m : Z) : 28 <= days_in_month y m.
Proof.
  unfold days_in_month. destruct (m =? 2); [destruct (is_leap y); lia|].
  destruct (_ || _); lia.
Qed.

Lemma add_one_day_next (y m d : Z) (start : date) :
  mk_date y m d = Ok start -> (y, m, d) <> (9999, 12, 31) ->
  exists e,
    add_one_day start = Ok e /\
    mk_date (year e) (month e) (day e) = Ok e /\
    lex_lt (y, m, d) (year e, month e, day e) /\
    (forall y' m' d' x, mk_date y' m' d' = Ok x ->
       ~ (lex_lt (y, m, d) (y', m', d') /\ lex_lt (y', m', d') (year e, month e, day e))).
Proof.
  intros Hs Hlast. apply mk_date_ok in Hs as (-> & Hy & Hm & Hd).
  pose proof (days_in_month_le y m). pose proof (days_in_month_ge y m).
  unfold add_one_day, MAXYEAR. cbn [year month day].
  destruct (d <? days_in_month y m) eqn:H1; [apply Z.ltb_lt in H1|apply Z.ltb_ge in H1].
  - eexists. split; [reflexivity|]. cbn [year month day].
    split; [apply mk_date_intro; lia|]. split; [cbn; lia|].
    intros y' m' d' x Hx [Hlo Hhi]. cbn in Hlo, Hhi. lia.
  - destruct (m <? 12) eqn:H2; [apply Z.ltb_lt in H2|apply Z.ltb_ge in H2].
    + eexists. split; [reflexivity|]. cbn [year month day].
      pose proof (days_in_month_ge y (m + 1)).
      split; [apply mk_date_intro; lia|]. split; [cbn; lia|].
      intros y' m' d' x Hx [Hlo Hhi]. apply mk_date_ok in Hx as (_ & Hy' & Hm' & Hd').
      cbn in Hlo, Hhi.
      assert (y' = y /\ m' = m) as [-> ->] by lia. lia.
    + assert (m = 12) by lia. subst m.
      assert (d = 31) by (unfold days_in_month in *; cbn in *; lia). subst d.
      destruct (y <? 9999) eqn:H3; [apply Z.ltb_lt in H3|apply Z.ltb_ge in H3].
      * eexists. split; [reflexivity|]. cbn [year month day].
        split; [apply mk_date_intro; cbn; lia|]. split; [cbn; lia|].
        intros y' m' d' x Hx [Hlo Hhi]. apply mk_date_ok in Hx as (_ & Hy' & Hm' & Hd').
        pose proof (days_in_month_le y' m'). cbn in Hlo, Hhi. lia.
      * exfalso. apply Hlast. assert (y = 9999) by lia. subst y. reflexivity.
Qed.

(** X: for a valid date other than 9999-12-31, [start + timedelta(days=1)]
    is a valid date after [start] with no valid date strictly in between,
    so [filterDate(start, end)] covers exactly one calendar day. *)
Theorem next_day_is_successor (y m d : Z) (start : date) :
  mk_date y m d = Ok start -> (y, m, d) <> (9999, 12, 31) ->
  exists e,
    add_one_day start = Ok e /\
    mk_date (year e) (month e) (day e) = Ok e /\
    lex_lt (y, m, d) (year e, month e, day e) /\
    (forall y' m' d' x, mk_date y' m' d' = Ok x ->
       ~ (lex_lt (y, m, d) (y', m', d') /\ lex_lt (y', m', d') (year e, month e, day e))).
Proof. apply add_one_day_next. Qed.

Lemma next_day_is_successor_witness :
  exists e,
    add_one_day (mkdate 2016 2 29) = Ok e /\
    mk_date (year e) (month e) (day e) = Ok e /\
    lex_lt (2016, 2, 29) (year e, month e, day e) /\
    (forall y' m' d' x, mk_date y' m' d' = Ok x ->
       ~ (lex_lt (2016, 2, 29) (y', m', d') /\ lex_lt (y', m', d') (year e, month e, day e))).
Proof. apply next_day_is_successor; [reflexivity | discriminate]. Defined.

(** X: [create_image] raises exactly on the dates Python's [date] rejects
    (year outside 1..9999, month outside 1..12, day past the end of the
    month) and on 9999-12-31, whose next day is out of range; every other
    date gets a request. *)
Theorem create_image_fails_iff (y m d : Z) (bands : list string) :
  (exists e, create_image y m d bands = Err e)
  <-> (exists e, mk_date y m d = Err e) \/ (y, m, d) = (9999, 12, 31).
Proof.
  unfold create_image. split.
  - intros [e He]. destruct (mk_date y m d) as [start|e'] eqn:Hmk; [|left; eexists; reflexivity].
    right. destruct (Z.eq_dec y 9999), (Z.eq_dec m 12), (Z.eq_dec d 31);
      try (subst; reflexivity); exfalso;
      (destruct (add_one_day_next y m d start Hmk) as [en [Hen _]];
       [intros Heq; injection Heq; lia|]);
      rewrite Hen in He; discriminate.
  - intros [[e He]|Heq].
    + rewrite He. eexists. reflexivity.
    + injection Heq as -> -> ->. eexists. reflexivity.
Qed.



